(** * OCI documentation MCP server: content pipeline and tool functions

    A shallow embedding of [oci_documentation_mcp_server/oci_ddgs.py].

    The module defines two tools, [search_documentation] and
    [read_documentation], and they are embedded from their code.  The three
    helpers they rely on ([is_html_content], [extract_content_from_html]
    and [format_documentation_result]) are imported from
    [oci_documentation_mcp_server.util] at line 33, and the code of that
    module is not among the sources; lines 39-69 of [oci_ddgs.py] are
    comments and are not what runs.  The helpers are therefore modelled from
    the specification, and every definition so obtained says so.

    Python values are modelled as follows.
    - [str] is a sequence of Unicode code points: [list N].
    - [int] is unbounded: [Z].
    - [dict] with string keys is a finite map [gmap pystr pystr].
    - A call that may raise yields an [outcome]: a value or an exception,
      the exception carrying its class (what [except] tests) and its
      [str()] text.
    - The calls of [client.get] are collected in a log, so that
      "no network call is made" is a statement about the log. *)

From Stdlib Require Import ZArith NArith List Ascii String Bool Lia.
From Stdlib Require Import DecimalString.
From stdpp Require Import base option list gmap.

Import ListNotations.
Local Open Scope Z_scope.

(** ** Python strings *)

Module PyStr.

(** A character is a Unicode code point. *)
Definition pychar : Type := N.
Definition pystr : Type := list N.

(** A string literal of the source; all of them are ASCII. *)
Definition lit (s : string) : pystr :=
  List.map N_of_ascii (list_ascii_of_string s).

Arguments lit : simpl never.

(** The line feed the source writes as a backslash followed by n. *)
Definition LF : pystr := [10%N].

(** [len(s)] *)
Definition len (s : pystr) : Z := Z.of_nat (length s).

(** [str(n)] and [f"{n}"] for an [int]: decimal digits, with a leading
    minus sign for negative numbers. *)
Definition str_of_int (n : Z) : pystr :=
  lit (NilZero.string_of_int (Z.to_int n)).

(** [s.startswith(p)] *)
Fixpoint startswith (s p : pystr) {struct p} : bool :=
  match p, s with
  | [], _ => true
  | _ :: _, [] => false
  | c :: p', d :: s' => N.eqb c d && startswith s' p'
  end.

(** Matching a literal at the head of [s]: what is left of [s] after
    [p], when [s] starts with [p]. *)
Fixpoint match_lit (p s : pystr) {struct p} : option pystr :=
  match p, s with
  | [], _ => Some s
  | _ :: _, [] => None
  | c :: p', d :: s' => if N.eqb c d then match_lit p' s' else None
  end.

(** [s.endswith(p)] *)
Definition endswith (s p : pystr) : bool :=
  startswith (reverse s) (reverse p).

(** [p in s]: [p] occurs in [s] as a contiguous run. *)
Fixpoint contains (p s : pystr) : bool :=
  startswith s p ||
  match s with
  | [] => false
  | _ :: s' => contains p s'
  end.

(** The characters [str.strip()] removes: those for which
    [str.isspace()] holds. *)
Definition isspace (c : pychar) : bool :=
  ((9 <=? c) && (c <=? 13) || (28 <=? c) && (c <=? 32) ||
   (c =? 133) || (c =? 160) || (c =? 5760) ||
   (8192 <=? c) && (c <=? 8202) || (c =? 8232) || (c =? 8233) ||
   (c =? 8239) || (c =? 8287) || (c =? 12288))%N.

Fixpoint lstrip (s : pystr) : pystr :=
  match s with
  | [] => []
  | c :: s' => if isspace c then lstrip s' else s
  end.

Definition rstrip (s : pystr) : pystr := reverse (lstrip (reverse s)).

(** [s.strip()] *)
Definition strip (s : pystr) : pystr := rstrip (lstrip s).

End PyStr.

Import PyStr.

(** ** The report and its fields *)

(** Modelled from the spec: the fields of a report, the data model's
    WindowedResult.  The report is made by [util.format_documentation_result],
    whose code is not among the sources. *)
Record WindowedResult : Type := MkWindow {
  sourceLocation : pystr;
  totalLength : Z;
  rangeStart : Z;
  rangeEnd : Z;
  body : pystr;
  truncated : bool;
  nextStartIndex : Z
}.

(** Modelled from the spec: the part of the success report every report
    has (External interfaces): heading line, total length line, range line,
    separator and body, each field on its own line. *)
Definition report_head (w : WindowedResult) : pystr :=
  lit "# OCI Documentation from " ++ sourceLocation w ++ LF ++ LF
  ++ lit "**Total Length:** " ++ str_of_int (totalLength w)
  ++ lit " characters" ++ LF
  ++ lit "**Showing:** Characters " ++ str_of_int (rangeStart w)
  ++ lit " to " ++ str_of_int (rangeEnd w) ++ LF ++ LF
  ++ lit "---" ++ LF ++ LF
  ++ body w.

(** Modelled from the spec: the lines that follow the report only if it is
    truncated; they name the index to resume from. *)
Definition truncation_note (next : Z) : pystr :=
  LF ++ LF ++ lit "---" ++ LF
  ++ lit "**Note:** Content truncated. To read more, call this function again with start_index="
  ++ str_of_int next.

(** Modelled from the spec: the whole report; the note follows only when
    [truncated]. *)
Definition render_report (w : WindowedResult) : pystr :=
  report_head w
  ++ (if truncated w then truncation_note (nextStartIndex w) else []).

(** ** The helpers of [util] *)

Module Util.

(** Modelled from the spec: [x] clamped to [[lo, hi]], as the invariant of
    WindowedResult uses it. *)
Definition clamp (x lo hi : Z) : Z := Z.max lo (Z.min x hi).

(** Modelled from the spec: PageWindower, steps 1 to 4, which
    [util.format_documentation_result] (absent from the sources) is
    described by.  The start is clamped into [[0, len content]]; the body is
    the content from there on, [maxLength] characters at most; the window is
    truncated when [startIndex + maxLength < len content]; the index to
    resume from is [startIndex + maxLength]. *)
Definition window (content : pystr) (startIndex maxLength : Z)
    (sourceLocation : pystr) : WindowedResult :=
  let start := clamp startIndex 0 (len content) in
  let body := take (Z.to_nat maxLength) (drop (Z.to_nat start) content) in
  {| sourceLocation := sourceLocation;
     totalLength := len content;
     rangeStart := start;
     rangeEnd := start + len body;
     body := body;
     truncated := startIndex + maxLength <? len content;
     nextStartIndex := startIndex + maxLength |}.

(** Modelled from the spec:
    [format_documentation_result(url, content, start_index, max_length)],
    the call of line 162; the function's code is not among the sources.
    PageWindower, step 5: the report of the window. *)
Definition format_documentation_result
    (url content : pystr) (start_index max_length : Z) : pystr :=
  render_report (window content start_index max_length url).

(** Modelled from the spec: the two kinds of content. *)
Inductive ContentKind : Type := HTML | PLAIN.

(** Modelled from the spec: upper case of an ASCII letter, other characters
    unchanged; it is how "case-insensitive" is read for the document-type
    token. *)
Definition ascii_upper (c : pychar) : pychar :=
  if ((97 <=? c) && (c <=? 122))%N then (c - 32)%N else c.

(** Modelled from the spec: ContentClassifier, the rule list in priority
    order.  The HTML media-type token is [text/html], the document-type
    declaration token is [<!DOCTYPE], compared without regard to case, and
    the opening root-markup tag is [<html]. *)
Definition classify (body declaredContentType : pystr) : ContentKind :=
  if contains (lit "text/html") declaredContentType then HTML
  else if startswith (List.map ascii_upper (strip body)) (lit "<!DOCTYPE")
          || contains (lit "<html") (take 1000 body)
  then HTML
  else PLAIN.

(** Modelled from the spec: [is_html_content(content, content_type)], the
    call of line 157; the function's code is not among the sources.  It is
    the classifier, read as a truth value. *)
Definition is_html_content (content content_type : pystr) : bool :=
  match classify content content_type with
  | HTML => true
  | PLAIN => false
  end.

End Util.

Import Util.

(** ** Exceptions and outcomes *)

(** The classes the two [except] clauses of the source tell apart:
    [httpx.HTTPError] (with its subclasses), any other subclass of
    [Exception] (for instance [httpx.InvalidURL], which does not derive from
    [httpx.HTTPError]), and what derives from [BaseException] only. *)
Inductive exc_class : Type :=
| HTTPError
| OtherException
| BaseOnly.

Record exc : Type := MkExc {
  exc_class_of : exc_class;
  exc_str : pystr            (* [str(e)] *)
}.

(** [isinstance(e, Exception)] *)
Definition isinstance_Exception (e : exc) : bool :=
  match exc_class_of e with
  | HTTPError | OtherException => true
  | BaseOnly => false
  end.

(** [isinstance(e, httpx.HTTPError)] *)
Definition isinstance_HTTPError (e : exc) : bool :=
  match exc_class_of e with
  | HTTPError => true
  | OtherException | BaseOnly => false
  end.

(** What a call comes to: it returns a value or an exception leaves it. *)
Inductive outcome (A : Type) : Type :=
| Return (a : A)
| Raise (e : exc).

Arguments Return {A} a.
Arguments Raise {A} e.

(** ** External collaborators *)

(** A dictionary with string keys and string values. *)
Abbreviation pydict := (gmap pystr pystr).

(** [d.get(key, '')] *)
Definition dict_get (d : pydict) (key : pystr) : pystr :=
  default [] (d !! key).

(** The part of an [httpx.Response] the source reads: [status_code],
    [text] (decoded as UTF-8, line 153) and the [content-type] header,
    which may be absent. *)
Record Response : Type := MkResponse {
  status_code : Z;
  text : pystr;
  header_content_type : option pystr
}.

(** The libraries the module calls.
    - [ddgs_text q n] is [DDGS().text(q, max_results=n)]: it raises, or
      returns [None] or a list of records.
    - [client_get u] is [client.get(u, follow_redirects=True, ...)].
    - [html_to_markdown h] is the HTML library the specification names as
      a collaborator: it parses [h], removes the script and style blocks
      and renders the rest as text with ATX headings; like any call, it may
      raise. *)
Class Collaborators : Type := {
  ddgs_text : pystr -> Z -> outcome (option (list pydict));
  client_get : pystr -> outcome Response;
  html_to_markdown : pystr -> outcome pystr
}.

(** ** Calls that use the network *)

(** A computation together with the locations it has passed to
    [client.get], in order. *)
Definition io (A : Type) : Type := (outcome A * list pystr)%type.

Definition io_ret {A} (a : A) : io A := (Return a, []).

(** ** The two tools *)

Section Tools.

Context `{env : Collaborators}.

(** Modelled from the spec: [extract_content_from_html(html_content)], the
    call of line 158; the function's code is not among the sources.
    HtmlNormalizer: the library's rendering of the page, trimmed of leading
    and trailing white space; when the library cannot proceed the result is
    the empty string and no error is signalled. *)
Definition extract_content_from_html (html_content : pystr) : pystr :=
  match html_to_markdown html_content with
  | Return markdown_text => strip markdown_text
  | Raise _ => []
  end.

(** One entry of the list [search_documentation] returns. *)
Definition result_entry (title url description : pystr) : pydict :=
  <[lit "title" := title]>
    (<[lit "url" := url]> (<[lit "description" := description]> ∅)).

(** [search_documentation(search_phrase, limit)], lines 73-104. *)
Definition search_documentation (search_phrase : pystr) (limit : Z)
  : outcome (list pydict) :=
  match ddgs_text (search_phrase ++ lit " site:docs.oracle.com") limit with
  | Raise e =>
      if isinstance_Exception e then
        let error_msg := lit "Error searching OCI docs: " ++ exc_str e in
        Return [result_entry [] [] error_msg]
      else Raise e
  | Return response =>
      let results :=
        match response with
        | None | Some [] => []          (* [if response:] fails *)
        | Some records =>
            List.map
              (fun result =>
                 result_entry (dict_get result (lit "title"))
                              (dict_get result (lit "href"))
                              (dict_get result (lit "body")))
              records
        end in
      Return results
  end.

(** [re.match(r'^https?://docs\.oracle\.com/', s)]: at the start of [s],
    [http], then an optional [s] (tried first, given up when the rest
    does not follow), then [://docs.oracle.com/]. *)
Definition re_match_docs_oracle (s : pystr) : bool :=
  match match_lit (lit "http") s with
  | None => false
  | Some r =>
      match match_lit (lit "s") r with
      | Some r' => startswith r' (lit "://docs.oracle.com/")
      | None => false
      end
      || startswith r (lit "://docs.oracle.com/")
  end.

(** The call of [client.get] at lines 137-142, recorded with the location
    it is given.  The record says that the call was made; what [httpx] then
    puts on the wire (the redirects it follows, nothing at all when it
    refuses the location) is its own affair. *)
Definition http_get (url_str : pystr) : io Response :=
  (client_get url_str, [url_str]).

(** [read_documentation(url, max_length, start_index)], lines 108-170.
    The policy checks, the request, the two [except]-or-status exits and the
    order of the calls are the source's; the three helpers called at lines
    157-162 are the definitions modelled from the specification above. *)
Definition read_documentation (url : pystr) (max_length start_index : Z)
  : io pystr :=
  let url_str := url in
  if negb (re_match_docs_oracle url_str) then
    io_ret (lit "Error: URL must be from the docs.oracle.com domain")
  else if negb (endswith url_str (lit ".htm"))
          && negb (endswith url_str (lit ".html")) then
    io_ret (lit "Error: URL must end with .htm or .html")
  else
    match http_get url_str with
    | (Raise e, log) =>
        if isinstance_HTTPError e then
          (Return (lit "Failed to fetch " ++ url_str ++ lit ": "
                     ++ exc_str e), log)
        else (Raise e, log)
    | (Return response, log) =>
        if status_code response >=? 400 then
          (Return (lit "Failed to fetch " ++ url_str
                     ++ lit " - status code "
                     ++ str_of_int (status_code response)), log)
        else
          let page_raw := text response in
          let content_type := default [] (header_content_type response) in
          let content :=
            if is_html_content page_raw content_type
            then extract_content_from_html page_raw
            else page_raw in
          (Return (format_documentation_result
                     url_str content start_index max_length), log)
    end.

End Tools.

(** ** Declarative readings of the string tests *)

(** [p] occurs in [s] as a contiguous run. *)
Definition occurs_in (p s : pystr) : Prop :=
  ∃ l r, s = l ++ p ++ r.

(** [t] is [s] without its leading and trailing white space. *)
Definition stripped_of (s t : pystr) : Prop :=
  ∃ l r, s = l ++ t ++ r
         ∧ Forall (λ c, isspace c = true) l
         ∧ Forall (λ c, isspace c = true) r
         ∧ (∀ c, head t = Some c → isspace c = false)
         ∧ (∀ c, last t = Some c → isspace c = false).

(** ** The path of a location

    These definitions follow the specification's words ("its path ends
    with an approved page-suffix"), not the source; they are what the
    source's test of the suffix is compared with. *)

Module Spec.

(** What follows the first [://] of a location. *)
Fixpoint after_scheme (s : pystr) : pystr :=
  match match_lit (lit "://") s with
  | Some r => r
  | None => match s with
            | [] => []
            | _ :: s' => after_scheme s'
            end
  end.

Fixpoint skip_until (stop : pychar → bool) (s : pystr) : pystr :=
  match s with
  | [] => []
  | c :: s' => if stop c then s else skip_until stop s'
  end.

Fixpoint take_until (stop : pychar → bool) (s : pystr) : pystr :=
  match s with
  | [] => []
  | c :: s' => if stop c then [] else c :: take_until stop s'
  end.

(** The path of a location: after the scheme and the host, up to the
    query ([?]) or the fragment ([#]). *)
Definition url_path (url : pystr) : pystr :=
  let is_delim c := ((c =? 47) || (c =? 63) || (c =? 35))%N in
  let ends_path c := ((c =? 63) || (c =? 35))%N in
  take_until ends_path (skip_until is_delim (after_scheme url)).

End Spec.

(** ** Shapes of the strings [read_documentation] returns *)

(** A report: the rendering of the window of some content for the
    requested location, start and length. *)
Definition is_report (url : pystr) (start_index max_length : Z)
    (s : pystr) : Prop :=
  ∃ content, s = render_report (window content start_index max_length url).

(** ** Sample collaborators *)

Module Samples.

(** A page served with status 200 and no content type. *)
Definition plain_page : Response :=
  {| status_code := 200;
     text := lit "hello world";
     header_content_type := None |}.

(** Every request is answered with [plain_page], every search with no
    record, and the conversion gives its input back. *)
Definition quiet : Collaborators :=
  {| ddgs_text := λ _ _, Return (Some []);
     client_get := λ _, Return plain_page;
     html_to_markdown := λ h, Return h |}.

(** [httpx] refuses a location that holds an ASCII control character
    with [httpx.InvalidURL], which is not an [httpx.HTTPError]. *)
Definition is_control (c : pychar) : bool := ((c <? 32) || (c =? 127))%N.

Definition invalid_url : exc :=
  {| exc_class_of := OtherException;
     exc_str := lit "Invalid non-printable ASCII character in URL" |}.

Definition strict_client : Collaborators :=
  {| ddgs_text := λ _ _, Return (Some []);
     client_get := λ u,
       if existsb is_control u then Raise invalid_url
       else Return plain_page;
     html_to_markdown := λ h, Return h |}.

(** A location on the approved host, with the approved suffix, that
    holds the control character BEL. *)
Definition bel_url : pystr :=
  lit "https://docs.oracle.com/a" ++ [7%N] ++ lit ".htm".

(** The transport fails with a connection error. *)
Definition connect_error : exc :=
  {| exc_class_of := HTTPError;
     exc_str := lit "All connection attempts failed" |}.

Definition offline : Collaborators :=
  {| ddgs_text := λ _ _,
       Raise {| exc_class_of := OtherException;
                exc_str := lit "No results found." |};
     client_get := λ _, Raise connect_error;
     html_to_markdown := λ h, Return h |}.




End Samples.

(** ** What [search_documentation] logs

    The same function, lines 73-104, this time with the records it hands
    to [logger], in order. *)

Inductive log_level : Type := DEBUG | INFO | ERROR.

Definition log_record : Type := (log_level * pystr)%type.

(** The messages logged at a given level. *)
Definition messages_at (is_level : log_level → bool)
    (log : list log_record) : list pystr :=
  List.map snd (List.filter (λ r, is_level (fst r)) log).

Definition is_error (l : log_level) : bool :=
  match l with ERROR => true | _ => false end.

Definition is_debug (l : log_level) : bool :=
  match l with DEBUG => true | _ => false end.

Section LoggedTools.

Context `{env : Collaborators}.

Definition search_documentation_logged (search_phrase : pystr) (limit : Z)
  : outcome (list pydict) * list log_record :=
  let log :=
    [(INFO, lit "Searching OCI documentation for: " ++ search_phrase)] in
  match ddgs_text (search_phrase ++ lit " site:docs.oracle.com") limit with
  | Raise e =>
      if isinstance_Exception e then
        let error_msg := lit "Error searching OCI docs: " ++ exc_str e in
        (Return [result_entry [] [] error_msg], log ++ [(ERROR, error_msg)])
      else (Raise e, log)
  | Return response =>
      let records :=
        match response with
        | None => []                      (* [if response:] fails *)
        | Some records => records
        end in
      let results :=
        List.map
          (λ result, result_entry (dict_get result (lit "title"))
                                  (dict_get result (lit "href"))
                                  (dict_get result (lit "body")))
          records in
      let log :=
        log ++ List.map (λ result, (DEBUG, dict_get result (lit "href")))
                 records in
      (Return results,
       log ++ [(DEBUG, lit "Found "
                         ++ str_of_int (Z.of_nat (length results))
                         ++ lit " search results for: " ++ search_phrase)])
  end.

End LoggedTools.

(** Further sample collaborators. *)

Module MoreSamples.

(** The provider is interrupted: the exception derives from
    [BaseException] only. *)
Definition interrupt : exc :=
  {| exc_class_of := BaseOnly; exc_str := [] |}.

Definition interrupted : Collaborators :=
  {| ddgs_text := λ _ _, Raise interrupt;
     client_get := λ _, Raise interrupt;
     html_to_markdown := λ h, Return h |}.

(** A record with a field the source does not read. *)
Definition record_with_extra : pydict :=
  {[ lit "title" := lit "Compute";
     lit "href" := lit "https://docs.oracle.com/compute.htm";
     lit "body" := lit "Instances";
     lit "score" := lit "0.9" ]}.

Definition extra_fields : Collaborators :=
  {| ddgs_text := λ _ _, Return (Some [record_with_extra]);
     client_get := λ _, Return Samples.plain_page;
     html_to_markdown := λ h, Return h |}.

End MoreSamples.

(** * Properties *)

(** ** The string tests meet their declarative readings *)

Section StringFacts.

Implicit Types s p t : pystr.

Lemma startswith_prefix s p : startswith s p = true ↔ p `prefix_of` s.
Proof.
  revert s. induction p as [|c p IH]; intros s; simpl.
  - split; [intros _; apply prefix_nil | done].
  - destruct s as [|d s].
    + split; [done | intros [k Hk]; discriminate].
    + rewrite andb_true_iff, N.eqb_eq, IH. split.
      * intros [-> Hp]. by apply prefix_cons.
      * intros [k Hk]. injection Hk as -> ->. split; [done | by exists k].
Qed.

Lemma match_lit_app p s r : match_lit p s = Some r ↔ s = p ++ r.
Proof.
  revert s. induction p as [|c p IH]; intros s; simpl.
  - split; [by intros [= ->] | by intros ->].
  - destruct s as [|d s]; [done|].
    destruct (N.eqb_spec c d) as [->|Hne].
    + rewrite IH. split; [by intros -> | by intros [= ->]].
    + split; [done | intros [= ? ?]; congruence].
Qed.

Lemma endswith_suffix s p : endswith s p = true ↔ p `suffix_of` s.
Proof.
  unfold endswith. rewrite startswith_prefix. split.
  - intros [k Hk]. exists (reverse k).
    rewrite <- (reverse_involutive s), Hk, reverse_app.
    by rewrite reverse_involutive.
  - intros [k ->]. exists (reverse k). apply reverse_app.
Qed.

Lemma contains_occurs p s : contains p s = true ↔ occurs_in p s.
Proof.
  induction s as [|d s IH].
  - simpl. rewrite orb_false_r, startswith_prefix. split.
    + intros [k Hk]. exists [], k. done.
    + intros (l & r & H). symmetry in H.
      apply app_eq_nil in H as [-> H]. apply app_eq_nil in H as [-> _].
      done.
  - cbn [contains]. rewrite orb_true_iff, startswith_prefix, IH. split.
    + intros [[k Hk] | (l & r & ->)].
      * exists [], k. done.
      * exists (d :: l), r. done.
    + intros (l & r & H). destruct l as [|d' l].
      * left. exists r. done.
      * right. injection H as -> ->. by exists l, r.
Qed.

Lemma lstrip_split s :
  ∃ l, s = l ++ lstrip s ∧ Forall (λ c, isspace c = true) l.
Proof.
  induction s as [|c s (l & Hl & Hsp)]; simpl.
  - by exists [].
  - destruct (isspace c) eqn:Hc.
    + exists (c :: l). split; [simpl; congruence | by constructor].
    + by exists [].
Qed.

Lemma lstrip_head s c : head (lstrip s) = Some c → isspace c = false.
Proof.
  induction s as [|d s IH]; simpl; [done|].
  destruct (isspace d) eqn:Hd; [done|]. simpl. by intros [= <-].
Qed.

Lemma rstrip_split s :
  ∃ r, s = rstrip s ++ r ∧ Forall (λ c, isspace c = true) r.
Proof.
  unfold rstrip. destruct (lstrip_split (reverse s)) as (l & Hl & Hsp).
  exists (reverse l). split.
  - rewrite <- reverse_app, <- Hl. by rewrite reverse_involutive.
  - by apply Forall_reverse.
Qed.

Lemma rstrip_last s c : last (rstrip s) = Some c → isspace c = false.
Proof. unfold rstrip. rewrite last_reverse. apply lstrip_head. Qed.

Lemma strip_stripped s : stripped_of s (strip s).
Proof.
  unfold strip.
  destruct (lstrip_split s) as (l & Hl & Hlsp).
  destruct (rstrip_split (lstrip s)) as (r & Hr & Hrsp).
  exists l, r. repeat split; try done.
  - by rewrite <- Hr.
  - intros c Hc. apply (lstrip_head s). rewrite Hr.
    destruct (rstrip (lstrip s)); [done | exact Hc].
  - apply rstrip_last.
Qed.

End StringFacts.

(** ** The window of the specification *)

Section WindowFacts.

Implicit Types content url : pystr.

Lemma len_nonneg content : 0 ≤ len content.
Proof. unfold len. lia. Qed.

(** A start that is not negative is clamped to the length of the content
    at most, and the content has nothing beyond its length. *)
Lemma window_body content start_index max_length url :
  0 ≤ start_index →
  body (window content start_index max_length url)
  = take (Z.to_nat max_length) (drop (Z.to_nat start_index) content).
Proof.
  intros Hs. unfold window, clamp. cbn [body].
  destruct (Z.le_gt_cases start_index (len content)) as [Hin|Hout].
  - do 2 f_equal. lia.
  - rewrite !drop_ge; [done | |]; unfold len in *; lia.
Qed.

Lemma len_window_body content start_index max_length url :
  0 ≤ start_index → 0 ≤ max_length →
  len (body (window content start_index max_length url))
  = Z.max 0 (Z.min (start_index + max_length) (len content) - start_index).
Proof.
  intros Hs Hm. rewrite window_body by done.
  unfold len. rewrite length_take, length_drop. lia.
Qed.

End WindowFacts.

(** ** Windowing: claims C1, C2 and C3 *)

(** C1.  For every content, [start_index ≥ 0] and [max_length > 0], the
    report of [format_documentation_result] is that of a window whose body
    has at most [max_length] characters and whose range start is
    [start_index] clamped to [[0, len content]]; the range runs over the
    body; and when [start_index] is at or past the end of the content the
    body is empty and the range start is the total length, no larger. *)
Theorem C1_window_body_bounded_start_clamped
    (url content : pystr) (start_index max_length : Z) :
  0 ≤ start_index → 0 < max_length →
  let w := window content start_index max_length url in
  format_documentation_result url content start_index max_length
  = render_report w
  ∧ body w = take (Z.to_nat max_length) (drop (Z.to_nat start_index) content)
  ∧ len (body w) ≤ max_length
  ∧ totalLength w = len content
  ∧ rangeStart w = clamp start_index 0 (len content)
  ∧ 0 ≤ rangeStart w ≤ totalLength w
  ∧ rangeEnd w - rangeStart w = len (body w)
  ∧ (start_index ≤ len content → rangeStart w = start_index)
  ∧ (len content ≤ start_index →
     body w = [] ∧ rangeStart w = totalLength w).
Proof.
  intros Hs Hm w. split; [reflexivity|].
  pose proof (window_body content start_index max_length url Hs) as Hbody.
  pose proof (len_window_body content start_index max_length url Hs
                ltac:(lia)) as Hlen.
  pose proof (len_nonneg content) as Hn.
  fold w in Hbody, Hlen.
  split; [exact Hbody|]. split; [lia|]. split; [reflexivity|].
  split; [reflexivity|].
  assert (Hnil : len content ≤ start_index → body w = []).
  { intros Hge. rewrite Hbody, drop_ge; [apply take_nil|].
    unfold len in Hge. lia. }
  unfold w, window, clamp in *.
  cbn [rangeStart rangeEnd totalLength body] in *.
  split; [lia|]. split; [lia|]. split; [lia|].
  intros Hge. split; [by apply Hnil | lia].
Qed.

(** The statement above holds of a start inside the content and of a start
    past its end. *)
Lemma C1_witness :
  (0 ≤ 3 ∧ 0 < 4
   ∧ body (window (lit "abcdefghij") 3 4 (lit "u")) = lit "defg"
   ∧ rangeStart (window (lit "abcdefghij") 3 4 (lit "u")) = 3)
  ∧ (0 ≤ 5 ∧ 0 < 10
     ∧ body (window (lit "abc") 5 10 (lit "u")) = []
     ∧ rangeStart (window (lit "abc") 5 10 (lit "u")) = 3).
Proof.
  split.
  - pose proof (C1_window_body_bounded_start_clamped
                  (lit "u") (lit "abcdefghij") 3 4 ltac:(lia) ltac:(lia))
      as (_ & Hb & _ & _ & _ & _ & _ & Hs & _).
    split; [lia|]. split; [lia|].
    split; [rewrite Hb; reflexivity | apply Hs; vm_compute; discriminate].
  - pose proof (C1_window_body_bounded_start_clamped
                  (lit "u") (lit "abc") 5 10 ltac:(lia) ltac:(lia))
      as (_ & _ & _ & _ & _ & _ & _ & _ & He).
    destruct (He ltac:(vm_compute; discriminate)) as [Hb Hs].
    split; [lia|]. split; [lia|]. split; [exact Hb|].
    etrans; [exact Hs | reflexivity].
Defined.

(** C2.  For every content, [start_index ≥ 0] and [max_length > 0] the
    report is marked truncated if and only if
    [len content > start_index + max_length], which is exactly when content
    remains beyond the body; when truncated the report ends with the note
    naming [start_index + max_length] as the index to resume from, and when
    not truncated the report is the head alone, with no note. *)
Theorem C2_truncated_iff_note_names_next
    (url content : pystr) (start_index max_length : Z) :
  0 ≤ start_index → 0 < max_length →
  let w := window content start_index max_length url in
  let result :=
    format_documentation_result url content start_index max_length in
  (truncated w = true ↔ len content > start_index + max_length)
  ∧ (truncated w = true ↔ start_index + len (body w) < len content)
  ∧ nextStartIndex w = start_index + max_length
  ∧ (truncated w = true →
     result = report_head w ++ truncation_note (start_index + max_length))
  ∧ (truncated w = false → result = report_head w).
Proof.
  intros Hs Hm w result.
  pose proof (len_window_body content start_index max_length url Hs
                ltac:(lia)) as Hlen.
  fold w in Hlen.
  assert (Htr : truncated w = true ↔ len content > start_index + max_length).
  { unfold w, window. cbn [truncated]. rewrite Z.ltb_lt. lia. }
  pose proof (len_nonneg content) as Hn.
  split; [exact Htr|]. split; [rewrite Htr; lia|]. split; [reflexivity|].
  unfold result, format_documentation_result. fold w. unfold render_report.
  split; intros ->; [reflexivity | apply app_nil_r].
Qed.

Lemma C2_witness :
  (0 ≤ 0 ∧ 0 < 4
   ∧ truncated (window (lit "abcdefghij") 0 4 (lit "u")) = true
   ∧ format_documentation_result (lit "u") (lit "abcdefghij") 0 4
     = report_head (window (lit "abcdefghij") 0 4 (lit "u"))
       ++ truncation_note 4)
  ∧ (0 ≤ 8 ∧ 0 < 4
     ∧ truncated (window (lit "abcdefghij") 8 4 (lit "u")) = false
     ∧ format_documentation_result (lit "u") (lit "abcdefghij") 8 4
       = report_head (window (lit "abcdefghij") 8 4 (lit "u"))).
Proof.
  split.
  - pose proof (C2_truncated_iff_note_names_next
                  (lit "u") (lit "abcdefghij") 0 4 ltac:(lia) ltac:(lia))
      as (_ & _ & _ & Hnote & _).
    split; [lia|]. split; [lia|]. split; [reflexivity|].
    apply Hnote. reflexivity.
  - pose proof (C2_truncated_iff_note_names_next
                  (lit "u") (lit "abcdefghij") 8 4 ltac:(lia) ltac:(lia))
      as (_ & _ & _ & _ & Hnone).
    split; [lia|]. split; [lia|]. split; [reflexivity|].
    apply Hnone. reflexivity.
Defined.

(** C3.  For every content, [start_index ≥ 0] and [max_length > 0] the
    body of the call at [start_index] followed by the body of the call at
    the advertised [start_index + max_length] is the content from
    [start_index] on, cut at [2 * max_length] characters: no gap and no
    overlap.  And for every content of length 12000 the calls with
    [max_length = 5000] at 0, 5000 and 10000 return bodies of 5000, 5000 and
    2000 characters, truncated, truncated and not truncated. *)
Theorem C3_windows_chain
    (url content : pystr) (start_index max_length : Z) :
  0 ≤ start_index → 0 < max_length →
  let w1 := window content start_index max_length url in
  let w2 := window content (nextStartIndex w1) max_length url in
  (format_documentation_result url content start_index max_length
   = render_report w1
   ∧ format_documentation_result url content (nextStartIndex w1) max_length
     = render_report w2
   ∧ nextStartIndex w1 = start_index + max_length
   ∧ body w1 ++ body w2
     = take (Z.to_nat (2 * max_length)) (drop (Z.to_nat start_index) content))
  ∧ (∀ c : pystr, len c = 12000 →
       let r k := window c k 5000 url in
       (len (body (r 0)) = 5000 ∧ truncated (r 0) = true
        ∧ nextStartIndex (r 0) = 5000)
       ∧ (len (body (r 5000)) = 5000 ∧ truncated (r 5000) = true
          ∧ nextStartIndex (r 5000) = 10000)
       ∧ (len (body (r 10000)) = 2000 ∧ truncated (r 10000) = false)).
Proof.
  intros Hs Hm w1 w2. split.
  - split; [reflexivity|]. split; [reflexivity|]. split; [reflexivity|].
    unfold w2, w1. rewrite !window_body by (cbn [nextStartIndex window]; lia).
    cbn [nextStartIndex window].
    replace (Z.to_nat (start_index + max_length))
      with (Z.to_nat start_index + Z.to_nat max_length)%nat by lia.
    rewrite <- drop_drop, take_take_drop. f_equal. lia.
  - intros c Hc r. unfold r.
    rewrite !len_window_body by lia. rewrite Hc.
    unfold window. cbn [truncated nextStartIndex]. rewrite Hc.
    repeat split.
Qed.

Lemma C3_witness :
  (0 ≤ 2 ∧ 0 < 3
   ∧ body (window (lit "abcdefghij") 2 3 (lit "u"))
     ++ body (window (lit "abcdefghij") 5 3 (lit "u"))
     = lit "cdefgh")
  ∧ (len (replicate (Z.to_nat 12000) 120%N) = 12000
     ∧ len (body (window (replicate (Z.to_nat 12000) 120%N) 10000 5000
                    (lit "u")))
       = 2000).
Proof.
  pose proof (C3_windows_chain (lit "u") (lit "abcdefghij") 2 3
                ltac:(lia) ltac:(lia)) as [(_ & _ & _ & Hchain) Hscen].
  split.
  - split; [lia|]. split; [lia|].
    etrans; [exact Hchain | reflexivity].
  - assert (H12 : len (replicate (Z.to_nat 12000) 120%N) = 12000)
      by (vm_compute; reflexivity).
    split; [exact H12|]. apply (Hscen _ H12).
Defined.

(** ** Classification: claim C4 *)

(** C4.  The classifier answers for every body and every declared content
    type, with HTML or with PLAIN.  It answers HTML exactly when the
    declared type contains [text/html] (whatever the body is), or the body
    without its leading and trailing white space begins with [<!DOCTYPE] in
    any mix of upper and lower case, or [<html] occurs within the first 1000
    characters of the body; otherwise it answers PLAIN.
    [is_html_content] is true exactly when the answer is HTML. *)
Theorem C4_classify_rule (body declaredContentType : pystr) :
  (classify body declaredContentType = HTML ↔
     occurs_in (lit "text/html") declaredContentType
     ∨ lit "<!DOCTYPE" `prefix_of` List.map ascii_upper (strip body)
     ∨ occurs_in (lit "<html") (take 1000 body))
  ∧ (classify body declaredContentType = PLAIN ↔
     ¬ occurs_in (lit "text/html") declaredContentType
     ∧ ¬ lit "<!DOCTYPE" `prefix_of` List.map ascii_upper (strip body)
     ∧ ¬ occurs_in (lit "<html") (take 1000 body))
  ∧ (classify body declaredContentType = HTML
     ∨ classify body declaredContentType = PLAIN)
  ∧ (is_html_content body declaredContentType = true ↔
     classify body declaredContentType = HTML)
  ∧ stripped_of body (strip body)
  ∧ (occurs_in (lit "text/html") declaredContentType →
     ∀ other : pystr, classify other declaredContentType = HTML).
Proof.
  assert (Hiff : ∀ b t, classify b t = HTML ↔
     occurs_in (lit "text/html") t
     ∨ lit "<!DOCTYPE" `prefix_of` List.map ascii_upper (strip b)
     ∨ occurs_in (lit "<html") (take 1000 b)).
  { intros b t. unfold classify.
    rewrite <- !contains_occurs, <- startswith_prefix.
    destruct (contains (lit "text/html") t); [by split; [left|]|].
    destruct (startswith _ _); [by split; [right; left|]|].
    destruct (contains (lit "<html") _); [by split; [right; right|]|].
    split; [done | intros [?|[?|?]]; done]. }
  assert (Htot : ∀ b t, classify b t = HTML ∨ classify b t = PLAIN).
  { intros b t. destruct (classify b t); auto. }
  split; [apply Hiff|]. split.
  - pose proof (Hiff body declaredContentType) as H.
    destruct (Htot body declaredContentType) as [Hc|Hc]; rewrite Hc in H |- *.
    + pose proof (proj1 H eq_refl) as HD.
      split; [discriminate | intros; exfalso; tauto].
    + assert (HD : ¬ (occurs_in (lit "text/html") declaredContentType
                      ∨ lit "<!DOCTYPE"
                          `prefix_of` List.map ascii_upper (strip body)
                      ∨ occurs_in (lit "<html") (take 1000 body)))
        by (intros HD; apply H in HD; discriminate).
      split; [intros _; tauto | done].
  - split; [apply Htot|]. split.
    + unfold is_html_content.
      destruct (classify body declaredContentType); split; done.
    + split; [apply strip_stripped|].
      intros Hct other. apply Hiff. by left.
Qed.

(** The three payloads of the specification's classifier test, and a
    document type written in lower case. *)
Example classify_declared :
  classify (lit "{}") (lit "text/html; charset=utf-8") = HTML.
Proof. reflexivity. Qed.

Example classify_doctype :
  classify (lit "  <!DOCTYPE html><p>x</p>") (lit "text/plain") = HTML.
Proof. reflexivity. Qed.

Example classify_json :
  classify (lit "{ }") (lit "application/json") = PLAIN.
Proof. reflexivity. Qed.

Example classify_lowercase_doctype :
  classify (lit "<!doctype html><title>t</title><p>hi</p>")
    (lit "application/octet-stream") = HTML.
Proof. reflexivity. Qed.

(** ** The location policy: claim C5 *)

Lemma re_match_docs_oracle_prefix (url : pystr) :
  re_match_docs_oracle url = true ↔
  lit "http://docs.oracle.com/" `prefix_of` url
  ∨ lit "https://docs.oracle.com/" `prefix_of` url.
Proof.
  unfold re_match_docs_oracle. split.
  - destruct (match_lit (lit "http") url) as [r|] eqn:Hr; [|done].
    apply match_lit_app in Hr as ->. rewrite orb_true_iff. intros [H|H].
    + destruct (match_lit (lit "s") r) as [r'|] eqn:Hr'; [|done].
      apply match_lit_app in Hr' as ->.
      apply startswith_prefix in H as [k ->]. right. by exists k.
    + apply startswith_prefix in H as [k ->]. left. by exists k.
  - intros [[k ->]|[k ->]]; vm_compute; reflexivity.
Qed.

(** C5, as the source has it.  A location that does not begin with
    [http://docs.oracle.com/] or [https://docs.oracle.com/] is answered
    with the domain error, and one that does but whose text, taken whole
    with any query or fragment, ends neither with [.htm] nor with [.html]
    is answered with the suffix error; in both cases no request is sent. *)
Theorem C5_policy_rejects_without_request
    `{env : Collaborators} (url : pystr) (max_length start_index : Z) :
  (¬ (lit "http://docs.oracle.com/" `prefix_of` url
      ∨ lit "https://docs.oracle.com/" `prefix_of` url) →
   read_documentation url max_length start_index
   = (Return (lit "Error: URL must be from the docs.oracle.com domain"), []))
  ∧ (lit "http://docs.oracle.com/" `prefix_of` url
     ∨ lit "https://docs.oracle.com/" `prefix_of` url →
     ¬ lit ".htm" `suffix_of` url → ¬ lit ".html" `suffix_of` url →
     read_documentation url max_length start_index
     = (Return (lit "Error: URL must end with .htm or .html"), [])).
Proof.
  unfold read_documentation. split.
  - rewrite <- re_match_docs_oracle_prefix. intros ->%not_true_is_false.
    reflexivity.
  - rewrite <- re_match_docs_oracle_prefix, <- !endswith_suffix.
    intros -> ->%not_true_is_false ->%not_true_is_false. reflexivity.
Qed.

Lemma C5_witness :
  (¬ (lit "http://docs.oracle.com/" `prefix_of` lit "https://example.com/page.htm"
      ∨ lit "https://docs.oracle.com/" `prefix_of` lit "https://example.com/page.htm")
   ∧ @read_documentation Samples.quiet
       (lit "https://example.com/page.htm") 5000 0
     = (Return (lit "Error: URL must be from the docs.oracle.com domain"),
        []))
  ∧ (lit "https://docs.oracle.com/"
       `prefix_of` lit "https://docs.oracle.com/page.txt"
     ∧ ¬ lit ".htm" `suffix_of` lit "https://docs.oracle.com/page.txt"
     ∧ ¬ lit ".html" `suffix_of` lit "https://docs.oracle.com/page.txt"
     ∧ @read_documentation Samples.quiet
         (lit "https://docs.oracle.com/page.txt") 5000 0
       = (Return (lit "Error: URL must end with .htm or .html"), [])).
Proof.
  assert (H1 : ¬ (lit "http://docs.oracle.com/"
                    `prefix_of` lit "https://example.com/page.htm"
                  ∨ lit "https://docs.oracle.com/"
                    `prefix_of` lit "https://example.com/page.htm")).
  { rewrite <- re_match_docs_oracle_prefix. vm_compute. discriminate. }
  assert (H2 : lit "https://docs.oracle.com/"
                 `prefix_of` lit "https://docs.oracle.com/page.txt").
  { apply startswith_prefix. vm_compute. reflexivity. }
  assert (H3 : ¬ lit ".htm" `suffix_of` lit "https://docs.oracle.com/page.txt").
  { rewrite <- endswith_suffix. vm_compute. discriminate. }
  assert (H4 : ¬ lit ".html" `suffix_of` lit "https://docs.oracle.com/page.txt").
  { rewrite <- endswith_suffix. vm_compute. discriminate. }
  split.
  - split; [exact H1|].
    exact (proj1 (@C5_policy_rejects_without_request Samples.quiet
                    (lit "https://example.com/page.htm") 5000 0) H1).
  - split; [exact H2|]. split; [exact H3|]. split; [exact H4|].
    exact (proj2 (@C5_policy_rejects_without_request Samples.quiet
                    (lit "https://docs.oracle.com/page.txt") 5000 0)
             (or_intror H2) H3 H4).
Defined.

(** C5 as worded fails for the suffix rule.  The location below is on the
    approved host and its path, [/page.txt], ends neither with [.htm] nor
    with [.html]; its query does.  The source tests the end of the whole
    text, so the location passes and the request is sent. *)
Lemma C5_counterexample_suffix_in_query :
  let url := lit "https://docs.oracle.com/page.txt?ref=a.htm" in
  re_match_docs_oracle url = true
  ∧ Spec.url_path url = lit "/page.txt"
  ∧ endswith (Spec.url_path url) (lit ".htm") = false
  ∧ endswith (Spec.url_path url) (lit ".html") = false
  ∧ snd (@read_documentation Samples.quiet url 5000 0) = [url]
  ∧ fst (@read_documentation Samples.quiet url 5000 0)
    = Return (format_documentation_result url (lit "hello world") 0 5000).
Proof. vm_compute. repeat split. Qed.

(** ** Searching: claims C6, C8 and C10 *)

Lemma result_entry_lookup (title url description : pystr) :
  result_entry title url description !! lit "title" = Some title
  ∧ result_entry title url description !! lit "url" = Some url
  ∧ result_entry title url description !! lit "description"
    = Some description.
Proof.
  unfold result_entry. split; [|split].
  - apply lookup_insert_eq.
  - rewrite lookup_insert_ne by (vm_compute; discriminate).
    apply lookup_insert_eq.
  - rewrite !lookup_insert_ne by (vm_compute; discriminate).
    apply lookup_insert_eq.
Qed.

(** What the source does with a response that is a list: one entry per
    record, in order. *)
Lemma search_documentation_records
    `{env : Collaborators} (search_phrase : pystr) (limit : Z)
    (records : list pydict) :
  ddgs_text (search_phrase ++ lit " site:docs.oracle.com") limit
  = Return (Some records) →
  search_documentation search_phrase limit
  = Return (List.map
              (λ result, result_entry (dict_get result (lit "title"))
                                      (dict_get result (lit "href"))
                                      (dict_get result (lit "body")))
              records).
Proof.
  intros H. unfold search_documentation. rewrite H.
  by destruct records.
Qed.

(** C6.  Whenever the provider call raises an exception (an instance of
    [Exception], which is what the source catches), the search returns,
    and returns exactly one entry: its title and url are the empty string
    and its description is the error text, made of the words
    "Error searching OCI docs: " and the text of the exception.  The list is
    not empty and nothing is raised to the caller. *)
Theorem C6_search_failure_is_one_entry
    `{env : Collaborators} (search_phrase : pystr) (limit : Z) (e : exc) :
  ddgs_text (search_phrase ++ lit " site:docs.oracle.com") limit = Raise e →
  isinstance_Exception e = true →
  ∃ entry : pydict,
    search_documentation search_phrase limit = Return [entry]
    ∧ entry !! lit "title" = Some []
    ∧ entry !! lit "url" = Some []
    ∧ entry !! lit "description"
      = Some (lit "Error searching OCI docs: " ++ exc_str e)
    ∧ occurs_in (exc_str e) (dict_get entry (lit "description")).
Proof.
  intros Hraise Hexc. unfold search_documentation. rewrite Hraise, Hexc.
  exists (result_entry [] [] (lit "Error searching OCI docs: " ++ exc_str e)).
  destruct (result_entry_lookup [] []
              (lit "Error searching OCI docs: " ++ exc_str e))
    as (Ht & Hu & Hd).
  split; [reflexivity|]. split; [exact Ht|]. split; [exact Hu|].
  split; [exact Hd|].
  exists (lit "Error searching OCI docs: "), []. rewrite app_nil_r.
  exact (f_equal (default []) Hd).
Qed.

Lemma C6_witness :
  ∃ entry : pydict,
    @search_documentation Samples.offline (lit "x") 3 = Return [entry]
    ∧ entry !! lit "title" = Some []
    ∧ entry !! lit "url" = Some []
    ∧ entry !! lit "description"
      = Some (lit "Error searching OCI docs: No results found.").
Proof.
  destruct (@C6_search_failure_is_one_entry Samples.offline (lit "x") 3
              {| exc_class_of := OtherException;
                 exc_str := lit "No results found." |}
              eq_refl eq_refl)
    as (entry & Hres & Ht & Hu & Hd & _).
  exists entry. repeat split; assumption.
Defined.

(** What the source makes of a list of records: one entry per record, in
    the provider's order; the entry's title is the record's [title], its
    url the record's [href] and its description the record's [body], each
    the empty string when the record lacks the field.  The source drops
    nothing, so there are as many entries as records. *)
Lemma search_documentation_maps_records_in_order
    `{env : Collaborators} (search_phrase : pystr) (limit : Z)
    (records : list pydict) :
  ddgs_text (search_phrase ++ lit " site:docs.oracle.com") limit
  = Return (Some records) →
  ∃ results : list pydict,
    search_documentation search_phrase limit = Return results
    ∧ length results = length records
    ∧ (∀ (i : nat) (record : pydict), records !! i = Some record →
       ∃ entry : pydict,
         results !! i = Some entry
         ∧ entry !! lit "title" = Some (default [] (record !! lit "title"))
         ∧ entry !! lit "url" = Some (default [] (record !! lit "href"))
         ∧ entry !! lit "description"
           = Some (default [] (record !! lit "body"))).
Proof.
  intros H. eexists. split; [by apply search_documentation_records|].
  split; [apply length_map|].
  intros i record Hi. eexists. split.
  - rewrite list_lookup_fmap, Hi. reflexivity.
  - apply result_entry_lookup.
Qed.


(** C10.  When the provider call succeeds with no record, be the response
    an empty list or [None], the search returns the empty list. *)
Theorem C10_search_empty_response
    `{env : Collaborators} (search_phrase : pystr) (limit : Z)
    (response : option (list pydict)) :
  ddgs_text (search_phrase ++ lit " site:docs.oracle.com") limit
  = Return response →
  response = None ∨ response = Some [] →
  search_documentation search_phrase limit = Return [].
Proof.
  intros H Hempty. unfold search_documentation. rewrite H.
  by destruct Hempty as [-> | ->].
Qed.

Lemma C10_witness :
  @search_documentation Samples.quiet (lit "x") 3 = Return [].
Proof.
  apply (@C10_search_empty_response Samples.quiet (lit "x") 3 (Some [])).
  - reflexivity.
  - right. reflexivity.
Defined.

(** ** Reading a page: claim C7 *)

(** C7, as the source has it.  Every string [read_documentation] returns
    is a report (heading line, total length line, range line, separator,
    body and, only when truncated, the note), or begins with "Error:", or
    begins with "Failed to fetch".  Once the location has passed the two
    policy checks the outcome follows the answer of the transport: an
    [httpx.HTTPError] is returned as the text "Failed to fetch", the
    location, a colon and the error; a status of 400 or more is returned as
    the text "Failed to fetch", the location and the status code; a status
    below 400 gives a report; and an exception that is not an
    [httpx.HTTPError] is not caught: it leaves the call unchanged.  Nothing
    else leaves the call as an exception. *)
Theorem C7_read_documentation_outcomes
    `{env : Collaborators} (url : pystr) (max_length start_index : Z) :
  (∀ (s : pystr) (log : list pystr),
     read_documentation url max_length start_index = (Return s, log) →
     is_report url start_index max_length s
     ∨ lit "Error:" `prefix_of` s
     ∨ lit "Failed to fetch" `prefix_of` s)
  ∧ (lit "http://docs.oracle.com/" `prefix_of` url
     ∨ lit "https://docs.oracle.com/" `prefix_of` url →
     lit ".htm" `suffix_of` url ∨ lit ".html" `suffix_of` url →
     match client_get url with
     | Raise e =>
         read_documentation url max_length start_index
         = if isinstance_HTTPError e
           then (Return (lit "Failed to fetch " ++ url ++ lit ": "
                           ++ exc_str e), [url])
           else (Raise e, [url])
     | Return response =>
         if status_code response >=? 400
         then read_documentation url max_length start_index
              = (Return (lit "Failed to fetch " ++ url
                           ++ lit " - status code "
                           ++ str_of_int (status_code response)), [url])
         else ∃ s, read_documentation url max_length start_index
                   = (Return s, [url])
                   ∧ is_report url start_index max_length s
     end)
  ∧ (∀ (e : exc) (log : list pystr),
       read_documentation url max_length start_index = (Raise e, log) →
       client_get url = Raise e
       ∧ isinstance_HTTPError e = false
       ∧ log = [url]).
Proof.
  split; [|split].
  - unfold read_documentation, io_ret, http_get. intros s log.
    destruct (re_match_docs_oracle url); cbn [negb];
      [|intros [= <- <-]; right; left; apply startswith_prefix; reflexivity].
    destruct (negb (endswith url (lit ".htm"))
              && negb (endswith url (lit ".html")));
      [intros [= <- <-]; right; left; apply startswith_prefix; reflexivity|].
    destruct (client_get url) as [response|e].
    + destruct (status_code response >=? 400).
      * intros [= <- <-]. right; right.
        exists (lit " " ++ url ++ lit " - status code "
                ++ str_of_int (status_code response)).
        reflexivity.
      * intros [= <- <-]. left. eexists. reflexivity.
    + destruct (isinstance_HTTPError e); [|discriminate].
      intros [= <- <-]. right; right.
      exists (lit " " ++ url ++ lit ": " ++ exc_str e). reflexivity.
  - intros Hpre Hsuf. unfold read_documentation, http_get.
    apply re_match_docs_oracle_prefix in Hpre. rewrite Hpre. cbn [negb].
    assert (Hs : negb (endswith url (lit ".htm"))
                 && negb (endswith url (lit ".html")) = false).
    { destruct Hsuf as [H|H]; apply endswith_suffix in H; rewrite H;
        cbn [negb andb]; [reflexivity | apply andb_false_r]. }
    rewrite Hs.
    destruct (client_get url) as [response|e].
    + destruct (status_code response >=? 400); [reflexivity|].
      eexists. split; [reflexivity|]. eexists. reflexivity.
    + destruct (isinstance_HTTPError e); reflexivity.
  - unfold read_documentation, io_ret, http_get. intros e log.
    destruct (re_match_docs_oracle url); cbn [negb]; [|discriminate].
    destruct (negb (endswith url (lit ".htm"))
              && negb (endswith url (lit ".html"))); [discriminate|].
    destruct (client_get url) as [response|e'].
    + destruct (status_code response >=? 400); discriminate.
    + destruct (isinstance_HTTPError e') eqn:Hcls; [discriminate|].
      intros [= <- <-]. done.
Qed.

Lemma C7_witness :
  (@read_documentation Samples.offline (lit "https://docs.oracle.com/a.htm")
     5000 0
   = (Return (lit "Failed to fetch https://docs.oracle.com/a.htm: All connection attempts failed"),
      [lit "https://docs.oracle.com/a.htm"]))
  ∧ (@read_documentation Samples.strict_client Samples.bel_url 5000 0
     = (Raise Samples.invalid_url, [Samples.bel_url])).
Proof.
  split.
  - apply (proj1 (proj2 (@C7_read_documentation_outcomes Samples.offline
                           (lit "https://docs.oracle.com/a.htm") 5000 0))).
    + right. apply startswith_prefix. vm_compute. reflexivity.
    + left. apply endswith_suffix. vm_compute. reflexivity.
  - apply (proj1 (proj2 (@C7_read_documentation_outcomes
                           Samples.strict_client Samples.bel_url 5000 0))).
    + right. apply startswith_prefix. vm_compute. reflexivity.
    + left. apply endswith_suffix. vm_compute. reflexivity.
Defined.

(** C7 as worded fails: a failure of the transport can leave the call.
    The location below passes both policy checks; the client refuses it
    with [httpx.InvalidURL], which the [except httpx.HTTPError] clause does
    not catch, and the exception reaches the caller. *)
Lemma C7_counterexample_uncaught_transport_failure :
  re_match_docs_oracle Samples.bel_url = true
  ∧ endswith Samples.bel_url (lit ".htm") = true
  ∧ isinstance_Exception Samples.invalid_url = true
  ∧ isinstance_HTTPError Samples.invalid_url = false
  ∧ @read_documentation Samples.strict_client Samples.bel_url 5000 0
    = (Raise Samples.invalid_url, [Samples.bel_url]).
Proof. vm_compute. repeat split. Qed.

(** The texts of a report and of a failed fetch, each reached. *)
Example read_documentation_report :
  @read_documentation Samples.quiet (lit "https://docs.oracle.com/a.htm") 5 0
  = (Return (format_documentation_result
               (lit "https://docs.oracle.com/a.htm") (lit "hello world") 0 5),
     [lit "https://docs.oracle.com/a.htm"]).
Proof. reflexivity. Qed.

Example read_documentation_transport_error :
  @read_documentation Samples.offline (lit "https://docs.oracle.com/a.htm") 5 0
  = (Return (lit "Failed to fetch https://docs.oracle.com/a.htm: All connection attempts failed"),
     [lit "https://docs.oracle.com/a.htm"]).
Proof. reflexivity. Qed.

(** * Further properties *)

(** ** Searching: keys and exceptions *)

Lemma result_entry_dom (title url description : pystr) :
  dom (result_entry title url description)
  = ({[lit "title"; lit "url"; lit "description"]} : gset pystr).
Proof.
  unfold result_entry. rewrite !dom_insert_L, dom_empty_L. set_solver.
Qed.

(** X8.  Every entry of a list [search_documentation] returns, after a
    success or after a failure of the provider, has the three keys [title],
    [url] and [description] and no other: a field of the provider's record
    that the source does not read is not passed on. *)
Theorem search_documentation_entry_keys
    `{env : Collaborators} (search_phrase : pystr) (limit : Z)
    (results : list pydict) :
  search_documentation search_phrase limit = Return results →
  Forall (λ entry : pydict,
            dom entry
            = ({[lit "title"; lit "url"; lit "description"]} : gset pystr))
         results.
Proof.
  unfold search_documentation.
  destruct (ddgs_text _ limit) as [[records|]|e].
  - intros [= <-]. destruct records as [|record records]; [constructor|].
    apply List.Forall_map, Forall_true. intros r. apply result_entry_dom.
  - intros [= <-]. constructor.
  - destruct (isinstance_Exception e); [|discriminate].
    intros [= <-]. constructor; [apply result_entry_dom | constructor].
Qed.

Lemma search_documentation_entry_keys_witness :
  ∃ entry : pydict,
    @search_documentation MoreSamples.extra_fields (lit "x") 3
    = Return [entry]
    ∧ MoreSamples.record_with_extra !! lit "score" = Some (lit "0.9")
    ∧ dom entry
      = ({[lit "title"; lit "url"; lit "description"]} : gset pystr)
    ∧ entry !! lit "score" = None.
Proof.
  eexists. split; [reflexivity|]. split; [reflexivity|].
  pose proof (@search_documentation_entry_keys MoreSamples.extra_fields
                (lit "x") 3 _ eq_refl) as H.
  apply Forall_cons_1 in H as [H _].
  split; [exact H | reflexivity].
Defined.

(** X9.  An exception leaves [search_documentation] exactly when the
    provider raised it and it is not an instance of [Exception] (a
    keyboard interrupt, a cancelled task): such an exception passes through
    unchanged, and in every other case the call returns a list. *)
Theorem search_documentation_raises_iff
    `{env : Collaborators} (search_phrase : pystr) (limit : Z) (e : exc) :
  search_documentation search_phrase limit = Raise e ↔
  ddgs_text (search_phrase ++ lit " site:docs.oracle.com") limit = Raise e
  ∧ isinstance_Exception e = false.
Proof.
  unfold search_documentation.
  destruct (ddgs_text _ limit) as [response|e'].
  - split; [discriminate | intros [[=] _]].
  - destruct (isinstance_Exception e') eqn:Hcls.
    + split; [discriminate | intros [[= ->] H]; congruence].
    + split; [intros [= ->]; done | intros [[= ->] _]; done].
Qed.

Lemma search_documentation_raises_iff_witness :
  @search_documentation MoreSamples.interrupted (lit "x") 3
  = Raise MoreSamples.interrupt.
Proof.
  apply (@search_documentation_raises_iff MoreSamples.interrupted).
  split; reflexivity.
Defined.

(** ** What [search_documentation] logs *)

Lemma messages_at_app (is_level : log_level → bool)
    (l1 l2 : list log_record) :
  messages_at is_level (l1 ++ l2)
  = messages_at is_level l1 ++ messages_at is_level l2.
Proof. unfold messages_at. by rewrite List.filter_app, List.map_app. Qed.

Lemma messages_at_debug_records (is_level : log_level → bool)
    (f : pydict → pystr) (records : list pydict) :
  messages_at is_level (List.map (λ r, (DEBUG, f r)) records)
  = if is_level DEBUG then List.map f records else [].
Proof.
  unfold messages_at. induction records as [|x xs IH]; cbn.
  - by destruct (is_level DEBUG).
  - destruct (is_level DEBUG); cbn; [by f_equal | exact IH].
Qed.

(** X16.  Logging changes nothing of what [search_documentation]
    returns.  The first record is the info record naming the phrase.  After
    a failure of the provider the one error record is the description of
    the one entry returned; after a success there is no error record, and
    the debug records are the urls of the entries, in order, followed by a
    count that is the number of entries returned.  An exception that leaves
    the call is preceded by the info record alone. *)
Theorem search_documentation_logged_records
    `{env : Collaborators} (search_phrase : pystr) (limit : Z) :
  let r := fst (search_documentation_logged search_phrase limit) in
  let log := snd (search_documentation_logged search_phrase limit) in
  r = search_documentation search_phrase limit
  ∧ head log
    = Some (INFO, lit "Searching OCI documentation for: " ++ search_phrase)
  ∧ match ddgs_text (search_phrase ++ lit " site:docs.oracle.com") limit, r
    with
    | Raise _, Return results =>
        messages_at is_error log
        = List.map (λ entry, dict_get entry (lit "description")) results
        ∧ messages_at is_debug log = []
    | Return _, Return results =>
        messages_at is_error log = []
        ∧ messages_at is_debug log
          = List.map (λ entry, dict_get entry (lit "url")) results
            ++ [lit "Found " ++ str_of_int (Z.of_nat (length results))
                ++ lit " search results for: " ++ search_phrase]
    | _, Raise _ => tail log = []
    end.
Proof.
  unfold search_documentation_logged, search_documentation.
  destruct (ddgs_text _ limit) as [response|e].
  - cbn [fst snd]. split; [by destruct response as [[|]|]|].
    split; [reflexivity|].
    set (records := match response with None => [] | Some x => x end).
    rewrite !messages_at_app, !messages_at_debug_records.
    cbn [is_error is_debug]. split; [reflexivity|].
    cbn [messages_at List.filter List.map fst snd is_debug app].
    rewrite List.length_map, List.map_map. reflexivity.
  - destruct (isinstance_Exception e); cbn; [|done].
    split; [reflexivity|]. split; [reflexivity|]. split; reflexivity.
Qed.
